(** * Simple linear regression utilities ([Regreesion.py])

    A shallow embedding of the five functions of
    [Gym Exercise Data Analysis/Regreesion.py]:

    - [linear_regression_coefficients]  (the specification's [fit]),
    - [linear_function]                 (the specification's [predict]),
    - [r_squared],
    - [mean_squared_error],
    - [root_mean_squared_error].

    The functions are written once, over an abstract scalar arithmetic
    ([Scalar]), exactly as the Python text is written over whatever numpy
    scalars it is handed.  The arithmetic the code runs is IEEE-754 binary64
    ([binary64]); what holds for every [Scalar] holds for it.  The sum of an
    array, [np.sum], is numpy's own code and is a parameter of the
    arithmetic: statements about binary64 hold for every summation order.

    A second arithmetic, [ereal], is the real numbers extended with one
    non-finite value: no rounding, no overflow, and a division by zero
    yields the non-finite value.  It states what the formulas of the code
    are worth in exact arithmetic, and nothing about rounding.

    A Python [raise ValueError(msg)] is the [Raise (ValueError msg)] outcome
    of the [result] type; the specification calls it [InvalidArgument]. *)

From Stdlib Require Import String Bool Arith ZArith List.
From Stdlib Require Import Floats.
From Stdlib Require Import Reals Lra Lia.
Import ListNotations.

(* Decimal literals such as [0.1%float] denote the nearest binary64 value. *)
#[local] Set Warnings "-inexact-float".

Local Open Scope string_scope.
Local Open Scope nat_scope.
Local Open Scope list_scope.

(* ================================================================= *)
(** ** Exceptions and results *)

Inductive exn : Type :=
| ValueError (msg : string).

Inductive result (A : Type) : Type :=
| Ok (a : A)
| Raise (e : exn).

Arguments Ok {A} a.
Arguments Raise {A} e.

Definition bind {A B : Type} (c : result A) (k : A -> result B) : result B :=
  match c with
  | Ok a => k a
  | Raise e => Raise e
  end.

Notation "x <- c ;; k" := (bind c (fun x => k))
  (at level 61, c at next level, right associativity).

(** The specification's single error kind. *)
Definition invalid_argument {A : Type} (r : result A) : bool :=
  match r with
  | Raise (ValueError _) => true
  | Ok _ => false
  end.

(* ================================================================= *)
(** ** Scalar arithmetic used by the source *)

Class Scalar (A : Type) : Type := {
  zero : A;                 (* start value of a reduction *)
  one : A;                  (* the literal [1] of [r_squared] *)
  add : A -> A -> A;
  sub : A -> A -> A;
  mul : A -> A -> A;
  div : A -> A -> A;        (* unguarded [/] *)
  sqrt_ : A -> A;           (* [np.sqrt] *)
  of_len : nat -> A;        (* the element count [np.mean] divides by *)
  reduce_add : list A -> A  (* [np.add.reduce]: the sum of a 1-D array, in
                               the order numpy chooses to add *)
}.

(** The elements accumulated one after the other from a start value. *)
Definition left_to_right {A : Type} (add : A -> A -> A) (zero : A)
  (a : list A) : A :=
  fold_left add a zero.

(** Element-wise combination of two arrays.  Every call in the source is
    made after the two lengths were checked equal; on unequal lengths (never
    reached) the longer array is cut. *)
Fixpoint zip_with {A B C : Type} (f : A -> B -> C) (a : list A) (b : list B)
  : list C :=
  match a, b with
  | ai :: a', bi :: b' => f ai bi :: zip_with f a' b'
  | _, _ => []
  end.

(* ================================================================= *)
(** ** The five functions *)

Section Regression.

Context {A : Type} {S : Scalar A}.

(** [np.sum]: numpy's reduction of the array by addition. *)
Definition np_sum (a : list A) : A := reduce_add a.

(** [np.mean]: the sum divided by the element count. *)
Definition np_mean (a : list A) : A := div (np_sum a) (of_len (length a)).

(** [a - s], array minus scalar. *)
Definition arr_sub_scalar (a : list A) (s : A) : list A :=
  map (fun ai => sub ai s) a.

(** [a + s], array plus scalar. *)
Definition arr_add_scalar (a : list A) (s : A) : list A :=
  map (fun ai => add ai s) a.

(** [s * a], scalar times array. *)
Definition scalar_mul_arr (s : A) (a : list A) : list A :=
  map (fun ai => mul s ai) a.

(** [a - b] and [a * b], element-wise. *)
Definition arr_sub (a b : list A) : list A := zip_with sub a b.
Definition arr_mul (a b : list A) : list A := zip_with mul a b.

(** [a ** 2], element-wise square. *)
Definition arr_sq (a : list A) : list A := map (fun ai => mul ai ai) a.

(** Lines 24-40. *)
Definition linear_regression_coefficients (x y : list A) : result (list A) :=
  if negb (length x =? length y) then
    Raise (ValueError "x and y must have the same length")
  else if (length x =? 0) || (length y =? 0) then
    Raise (ValueError "x and y cannot be empty")
  else
    let x_mean := np_mean x in
    let y_mean := np_mean y in
    let b1 := div (np_sum (arr_mul x (arr_sub_scalar y y_mean)))
                  (np_sum (arr_sq (arr_sub_scalar x x_mean))) in
    let b0 := sub y_mean (mul b1 x_mean) in
    Ok [b1; b0].

(** Lines 63-67.  [coef[0]] and [coef[1]] are read after the length check,
    so the default of [nth] is never returned. *)
Definition linear_function (x : list A) (coef : list A) : result (list A) :=
  if negb (length coef =? 2) then
    Raise (ValueError "coef must contain exactly two elements: [b1, b0]")
  else
    Ok (arr_add_scalar (scalar_mul_arr (nth 0 coef zero) x) (nth 1 coef zero)).

(** [np.sum((y - y_pred) ** 2)], line 106 (SSE). *)
Definition residual_sum_of_squares (y y_pred : list A) : A :=
  np_sum (arr_sq (arr_sub y y_pred)).

(** [np.sum((y - np.mean(y)) ** 2)], line 103 (SST). *)
Definition total_sum_of_squares (y : list A) : A :=
  np_sum (arr_sq (arr_sub_scalar y (np_mean y))).

(** Lines 92-109. *)
Definition r_squared (x y : list A) (coef : list A) : result A :=
  if negb (length x =? length y) then
    Raise (ValueError "x and y must have the same length")
  else if (length x =? 0) || (length y =? 0) then
    Raise (ValueError "x and y cannot be empty")
  else if negb (length coef =? 2) then
    Raise (ValueError "coef must contain exactly two elements: [b1, b0]")
  else
    y_pred <- linear_function x coef ;;
    let total_variance := total_sum_of_squares y in
    let residual_variance := residual_sum_of_squares y y_pred in
    Ok (sub one (div residual_variance total_variance)).

(** Lines 132-137. *)
Definition mean_squared_error (y_true y_pred : list A) : result A :=
  if negb (length y_true =? length y_pred) then
    Raise (ValueError "y_true and y_pred must have the same length")
  else if (length y_true =? 0) || (length y_pred =? 0) then
    Raise (ValueError "y_true and y_pred cannot be empty")
  else
    Ok (np_mean (arr_sq (arr_sub y_true y_pred))).

(** Lines 160-165. *)
Definition root_mean_squared_error (y_true y_pred : list A) : result A :=
  if negb (length y_true =? length y_pred) then
    Raise (ValueError "y_true and y_pred must have the same length")
  else if (length y_true =? 0) || (length y_pred =? 0) then
    Raise (ValueError "y_true and y_pred cannot be empty")
  else
    m <- mean_squared_error y_true y_pred ;;
    Ok (sqrt_ m).

End Regression.

(* ================================================================= *)
(** ** The formulas of the specification, by index *)

Section Formulas.

Context {A : Type} {S : Scalar A}.

(** The terms [f 0, ..., f (n - 1)] of a sum over indices. *)
Definition terms (n : nat) (f : nat -> A) : list A := map f (seq 0 n).

(** The i-th element of a sequence. *)
Definition item (l : list A) (i : nat) : A := nth i l zero.

(** [mean l = (sum_i l_i) / n]. *)
Definition mean_by_index (l : list A) : A :=
  div (np_sum (terms (length l) (item l))) (of_len (length l)).

(** [b1 = sum_i x_i * (y_i - mean y) / sum_i (x_i - mean x)^2], with the raw
    [x_i] in the numerator. *)
Definition slope_by_index (x y : list A) : A :=
  div (np_sum (terms (length x)
                 (fun i => mul (item x i) (sub (item y i) (mean_by_index y)))))
      (np_sum (terms (length x)
                 (fun i => mul (sub (item x i) (mean_by_index x))
                               (sub (item x i) (mean_by_index x))))).

(** [b0 = mean y - b1 * mean x]. *)
Definition intercept_by_index (x y : list A) : A :=
  sub (mean_by_index y) (mul (slope_by_index x y) (mean_by_index x)).

(** The covariance over variance form of the slope, with the centered
    [x_i - mean x] in the numerator. *)
Definition slope_centered_by_index (x y : list A) : A :=
  div (np_sum (terms (length x)
                 (fun i => mul (sub (item x i) (mean_by_index x))
                               (sub (item y i) (mean_by_index y)))))
      (np_sum (terms (length x)
                 (fun i => mul (sub (item x i) (mean_by_index x))
                               (sub (item x i) (mean_by_index x))))).

End Formulas.

(* ================================================================= *)
(** ** Exact arithmetic: reals with a non-finite value *)

(** [NonFinite] stands for what IEEE-754 returns where real arithmetic has
    no value (NaN or an infinity).  It is produced by a division by zero and
    by the square root of a negative number, and every operation propagates
    it.  On arrays of [Finite] numbers no divisor of the program is ever
    [NonFinite], so the only IEEE rule this abstraction drops (a finite
    number divided by an infinity is zero) is never exercised. *)
Inductive ereal : Type :=
| NonFinite
| Finite (r : R).

Definition elift2 (f : R -> R -> R) (a b : ereal) : ereal :=
  match a, b with
  | Finite r, Finite s => Finite (f r s)
  | _, _ => NonFinite
  end.

Definition ediv (a b : ereal) : ereal :=
  match a, b with
  | Finite r, Finite s =>
      if Req_dec_T s 0 then NonFinite else Finite (r / s)
  | _, _ => NonFinite
  end.

Definition esqrt (a : ereal) : ereal :=
  match a with
  | Finite r => if Rlt_dec r 0 then NonFinite else Finite (sqrt r)
  | NonFinite => NonFinite
  end.

(** Addition of reals is associative and commutative and [NonFinite]
    absorbs, so every order of summation gives the sum computed here. *)
#[export] Instance ereal_scalar : Scalar ereal := {|
  zero := Finite 0%R;
  one := Finite 1%R;
  add := elift2 Rplus;
  sub := elift2 Rminus;
  mul := elift2 Rmult;
  div := ediv;
  sqrt_ := esqrt;
  of_len := fun n => Finite (INR n);
  reduce_add := left_to_right (elift2 Rplus) (Finite 0%R)
|}.


(** An array of real numbers. *)
Definition reals (l : list R) : list ereal := map Finite l.

(* ================================================================= *)
(** ** IEEE-754 binary64 *)

(** Binary64 with round to nearest even, over a summation [reduce] of
    arrays. *)
Definition binary64 (reduce : list float -> float) : Scalar float := {|
  zero := 0%float;
  one := 1%float;
  add := PrimFloat.add;
  sub := PrimFloat.sub;
  mul := PrimFloat.mul;
  div := PrimFloat.div;
  sqrt_ := PrimFloat.sqrt;
  of_len := fun n => PrimFloat.of_uint63 (Uint63.of_Z (Z.of_nat n));
  reduce_add := reduce
|}.

(** For evaluation on short arrays: numpy sums an array of fewer than 8
    elements by accumulating them left to right from zero.  This instance is
    applied below to arrays of at most 5 elements only. *)
#[export] Instance float_scalar : Scalar float :=
  binary64 (left_to_right PrimFloat.add 0%float).

(** A binary64 value that is NaN or an infinity. *)
Definition non_finite (f : float) : bool :=
  PrimFloat.is_nan f || PrimFloat.is_infinity f.

(** The same, on the specification-level floats of the standard library. *)
Definition sf_non_finite (s : spec_float) : bool :=
  match s with
  | S754_nan | S754_infinity _ => true
  | S754_zero _ | S754_finite _ _ _ => false
  end.

(** The guard shared by the four functions that take paired arrays: equal
    lengths, none empty. *)
Definition paired_ok {A : Type} (a b : list A) : bool :=
  (length a =? length b) && negb ((length a =? 0) || (length b =? 0)).

(* ================================================================= *)
(** ** Sums over reals, for stating what the functions return *)

Local Open Scope R_scope.

(** Sum and mean of a list of reals, for stating results. *)
Definition Rsum (l : list R) : R := fold_right Rplus 0 l.
Definition Rmean (l : list R) : R := Rsum l / INR (length l).
Definition Rsq (r : R) : R := r * r.







(* ----------------------------------------------------------------- *)
(** *** Sums of reals by index *)

(** [sigma n f] is the sum of [f i] over [0 <= i < n]. *)
Fixpoint sigma (n : nat) (f : nat -> R) : R :=
  match n with
  | O => 0
  | Datatypes.S n' => f O + sigma n' (fun i => f (Datatypes.S i))
  end.

(** The i-th element of a sequence of reals. *)
Definition at_ (l : list R) (i : nat) : R := nth i l 0.

Definition mean_spec (l : list R) : R :=
  sigma (length l) (at_ l) / INR (length l).

(* ----------------------------------------------------------------- *)
(** *** Properties stated by the specification *)




Local Close Scope R_scope.

(* ================================================================= *)
(** ** Validation: which calls raise *)

Section Validation.

Context {A : Type} {S : Scalar A}.

Lemma paired_ok_true (a b : list A) :
  paired_ok a b = true <-> length a = length b /\ a <> [].
Proof.
  unfold paired_ok. rewrite andb_true_iff, negb_true_iff, orb_false_iff.
  rewrite Nat.eqb_eq. split.
  - intros [Hl [Ha _]]. split; [exact Hl|].
    intro Hn. subst a. discriminate Ha.
  - intros [Hl Ha]. split; [exact Hl|].
    destruct a as [|a0 a']; [contradiction|].
    destruct b; [discriminate Hl|]. split; reflexivity.
Qed.

Lemma paired_ok_false (a b : list A) :
  paired_ok a b = false <-> length a <> length b \/ a = [] \/ b = [].
Proof.
  split.
  - intro H. destruct (Nat.eq_dec (length a) (length b)) as [Hl|Hl];
      [|left; exact Hl].
    destruct a as [|a0 a']; [right; left; reflexivity|].
    assert (paired_ok (a0 :: a') b = true) as Ht
        by (apply paired_ok_true; split; [exact Hl|discriminate]).
    rewrite Ht in H. discriminate H.
  - intro H. destruct (paired_ok a b) eqn:E; [|reflexivity].
    apply paired_ok_true in E. destruct E as [Hl Ha].
    destruct H as [H|[H|H]]; try contradiction.
    subst b. destruct a; [contradiction|discriminate Hl].
Qed.

Lemma fit_unfold (x y : list A) :
  linear_regression_coefficients x y =
  if paired_ok x y then
    let b1 := div (np_sum (arr_mul x (arr_sub_scalar y (np_mean y))))
                  (np_sum (arr_sq (arr_sub_scalar x (np_mean x)))) in
    Ok [b1; sub (np_mean y) (mul b1 (np_mean x))]
  else if length x =? length y then
    Raise (ValueError "x and y cannot be empty")
  else Raise (ValueError "x and y must have the same length").
Proof.
  unfold linear_regression_coefficients, paired_ok.
  destruct (length x =? length y); simpl; [|reflexivity].
  destruct ((length x =? 0) || (length y =? 0)); reflexivity.
Qed.

Lemma predict_unfold (x coef : list A) :
  linear_function x coef =
  match coef with
  | [b1; b0] => Ok (map (fun xi => add (mul b1 xi) b0) x)
  | _ => Raise (ValueError "coef must contain exactly two elements: [b1, b0]")
  end.
Proof.
  unfold linear_function, arr_add_scalar, scalar_mul_arr.
  destruct coef as [|b1 [|b0 [|c coef]]]; simpl; try reflexivity.
  rewrite map_map. reflexivity.
Qed.

Lemma mse_unfold (a b : list A) :
  mean_squared_error a b =
  if paired_ok a b then Ok (np_mean (arr_sq (arr_sub a b)))
  else if length a =? length b then
    Raise (ValueError "y_true and y_pred cannot be empty")
  else Raise (ValueError "y_true and y_pred must have the same length").
Proof.
  unfold mean_squared_error, paired_ok.
  destruct (length a =? length b); simpl; [|reflexivity].
  destruct ((length a =? 0) || (length b =? 0)); reflexivity.
Qed.

Lemma rmse_unfold (a b : list A) :
  root_mean_squared_error a b =
  if paired_ok a b then Ok (sqrt_ (np_mean (arr_sq (arr_sub a b))))
  else if length a =? length b then
    Raise (ValueError "y_true and y_pred cannot be empty")
  else Raise (ValueError "y_true and y_pred must have the same length").
Proof.
  unfold root_mean_squared_error. rewrite mse_unfold. unfold paired_ok.
  destruct (length a =? length b); simpl; [|reflexivity].
  destruct ((length a =? 0) || (length b =? 0)); reflexivity.
Qed.

Lemma r_squared_unfold (x y coef : list A) :
  r_squared x y coef =
  if paired_ok x y then
    match coef with
    | [b1; b0] =>
        Ok (sub one
              (div (residual_sum_of_squares y
                      (map (fun xi => add (mul b1 xi) b0) x))
                   (total_sum_of_squares y)))
    | _ => Raise (ValueError "coef must contain exactly two elements: [b1, b0]")
    end
  else if length x =? length y then
    Raise (ValueError "x and y cannot be empty")
  else Raise (ValueError "x and y must have the same length").
Proof.
  unfold r_squared. rewrite predict_unfold. unfold paired_ok.
  destruct (length x =? length y); simpl; [|reflexivity].
  destruct ((length x =? 0) || (length y =? 0)); simpl; [reflexivity|].
  destruct coef as [|b1 [|b0 [|c coef]]]; reflexivity.
Qed.

End Validation.

(* ================================================================= *)
(** ** Arrays of reals: what the array operations compute *)

Local Open Scope R_scope.

Lemma length_reals (l : list R) : length (reals l) = length l.
Proof. apply length_map. Qed.

Lemma fold_add_reals (l : list R) (a : R) :
  fold_left add (reals l) (Finite a) = Finite (a + Rsum l).
Proof.
  revert a. induction l as [|r l IH]; intro a; simpl.
  - f_equal. lra.
  - rewrite IH. f_equal. lra.
Qed.

Lemma np_sum_reals (l : list R) : np_sum (reals l) = Finite (Rsum l).
Proof.
  change (fold_left add (reals l) (Finite 0) = Finite (Rsum l)).
  rewrite fold_add_reals. f_equal. lra.
Qed.

Lemma INR_length_nonzero (l : list R) : l <> [] -> INR (length l) <> 0.
Proof.
  intro H. destruct l as [|r l]; [contradiction|].
  apply not_0_INR. simpl. discriminate.
Qed.

Lemma np_mean_reals (l : list R) :
  l <> [] -> np_mean (reals l) = Finite (Rmean l).
Proof.
  intro H. unfold np_mean. rewrite np_sum_reals, length_reals. simpl.
  destruct (Req_dec_T (INR (length l)) 0) as [E|_].
  - exfalso. exact (INR_length_nonzero l H E).
  - reflexivity.
Qed.


Lemma arr_sq_reals (l : list R) : arr_sq (reals l) = reals (map Rsq l).
Proof.
  unfold arr_sq, reals. rewrite !map_map. reflexivity.
Qed.

Lemma zip_with_reals (f : R -> R -> R) (a b : list R) :
  zip_with (elift2 f) (reals a) (reals b) = reals (zip_with f a b).
Proof.
  revert b. induction a as [|r a IH]; intros [|s b]; simpl; try reflexivity.
  rewrite IH. reflexivity.
Qed.

Lemma arr_sub_reals (a b : list R) :
  arr_sub (reals a) (reals b) = reals (zip_with Rminus a b).
Proof. apply zip_with_reals. Qed.



(* ----------------------------------------------------------------- *)
(** *** Sums of reals *)




Lemma Rsum_sq_nonneg (l : list R) : 0 <= Rsum (map Rsq l).
Proof.
  induction l as [|r l IH]; simpl; [lra|].
  assert (0 <= Rsq r) by (unfold Rsq; nra). lra.
Qed.


(* ----------------------------------------------------------------- *)
(** *** The coefficients on arrays of reals *)

Lemma paired_ok_reals (x y : list R) :
  length x = length y -> x <> [] -> paired_ok (reals x) (reals y) = true.
Proof.
  intros Hl Hx. apply paired_ok_true. rewrite !length_reals.
  split; [exact Hl|]. destruct x; [contradiction|discriminate].
Qed.

Lemma paired_nonempty (x y : list R) :
  length x = length y -> x <> [] -> y <> [].
Proof.
  intros Hl Hx Hy. subst y. destruct x; [contradiction|discriminate Hl].
Qed.





Lemma mse_reals (a b : list R) :
  length a = length b -> a <> [] ->
  mean_squared_error (reals a) (reals b) =
  Ok (Finite (Rmean (map Rsq (zip_with Rminus a b)))).
Proof.
  intros Hl Ha. rewrite mse_unfold, (paired_ok_reals a b Hl Ha).
  rewrite arr_sub_reals, arr_sq_reals, np_mean_reals; [reflexivity|].
  destruct a as [|r a]; [contradiction|].
  destruct b as [|s b]; [discriminate Hl|]. discriminate.
Qed.

(* ----------------------------------------------------------------- *)
(** *** The divisor vanishes on constant arrays only *)





(* ================================================================= *)
(** ** Sums of reals by index *)

Lemma sigma_ext (n : nat) (f g : nat -> R) :
  (forall i, f i = g i) -> sigma n f = sigma n g.
Proof.
  revert f g. induction n as [|n IH]; intros f g H; simpl; [reflexivity|].
  rewrite H. f_equal. apply IH. intro i. apply H.
Qed.

Lemma sigma_minus (n : nat) (f g : nat -> R) :
  sigma n (fun i => f i - g i) = sigma n f - sigma n g.
Proof.
  revert f g. induction n as [|n IH]; intros f g; simpl; [lra|].
  rewrite (IH (fun i => f (Datatypes.S i)) (fun i => g (Datatypes.S i))). lra.
Qed.

Lemma sigma_scal (n : nat) (c : R) (f : nat -> R) :
  sigma n (fun i => c * f i) = c * sigma n f.
Proof.
  revert f. induction n as [|n IH]; intro f; simpl; [lra|].
  rewrite (IH (fun i => f (Datatypes.S i))). lra.
Qed.

Lemma sigma_const (n : nat) (c : R) : sigma n (fun _ => c) = INR n * c.
Proof.
  induction n as [|n IH]; [simpl; lra|].
  rewrite S_INR. simpl. rewrite IH. lra.
Qed.

(** The deviations from the mean sum to zero. *)
Lemma sigma_centered_zero (y : list R) (n : nat) :
  n = length y -> y <> [] ->
  sigma n (fun i => at_ y i - mean_spec y) = 0.
Proof.
  intros -> Hy.
  rewrite (sigma_minus (length y) (at_ y) (fun _ => mean_spec y)), sigma_const.
  unfold mean_spec. field. apply INR_length_nonzero. exact Hy.
Qed.

(* ================================================================= *)
(** ** Fit: the coefficient formulas *)


Lemma raw_numerator_is_centered (x y : list R) :
  length x = length y -> x <> [] ->
  sigma (length x) (fun i => mean_spec x * (at_ y i - mean_spec y)) = 0 /\
  sigma (length x) (fun i => at_ x i * (at_ y i - mean_spec y)) =
  sigma (length x) (fun i => (at_ x i - mean_spec x) * (at_ y i - mean_spec y)).
Proof.
  intros Hl Hx.
  assert (sigma (length x) (fun i => mean_spec x * (at_ y i - mean_spec y)) = 0)
    as Hz.
  { rewrite (sigma_scal (length x) (mean_spec x)
               (fun i => at_ y i - mean_spec y)).
    rewrite (sigma_centered_zero y (length x) Hl (paired_nonempty x y Hl Hx)).
    lra. }
  split; [exact Hz|].
  rewrite (sigma_ext (length x)
             (fun i => (at_ x i - mean_spec x) * (at_ y i - mean_spec y))
             (fun i => at_ x i * (at_ y i - mean_spec y)
                       - mean_spec x * (at_ y i - mean_spec y)))
    by (intro i; ring).
  rewrite (sigma_minus (length x)
             (fun i => at_ x i * (at_ y i - mean_spec y))
             (fun i => mean_spec x * (at_ y i - mean_spec y))).
  rewrite Hz. lra.
Qed.

(* ----------------------------------------------------------------- *)
(** *** The array expressions of the source are the sums by index *)

Section FormulasOfFit.

Context {A : Type} {S : Scalar A}.

Lemma terms_succ (n : nat) (h : nat -> A) :
  terms (Datatypes.S n) h = h O :: terms n (fun i => h (Datatypes.S i)).
Proof.
  unfold terms. simpl. rewrite <- seq_shift, map_map. reflexivity.
Qed.

Lemma terms_map (f : A -> A) (l : list A) :
  terms (length l) (fun i => f (item l i)) = map f l.
Proof.
  induction l as [|a l IH]; [reflexivity|].
  simpl length. rewrite terms_succ. simpl. f_equal. exact IH.
Qed.

Lemma terms_zip (g : A -> A -> A) (x y : list A) :
  length x = length y ->
  terms (length x) (fun i => g (item x i) (item y i)) = zip_with g x y.
Proof.
  revert y. induction x as [|a x IH]; intros [|b y] H; try discriminate H;
    [reflexivity|].
  injection H as H. simpl length. rewrite terms_succ. simpl. f_equal.
  exact (IH y H).
Qed.

Lemma zip_with_map_r (f : A -> A -> A) (g : A -> A) (x y : list A) :
  zip_with f x (map g y) = zip_with (fun a b => f a (g b)) x y.
Proof.
  revert y. induction x as [|a x IH]; intros [|b y]; simpl; try reflexivity.
  rewrite IH. reflexivity.
Qed.

Lemma terms_item (l : list A) : terms (length l) (item l) = l.
Proof.
  induction l as [|a l IH]; [reflexivity|].
  simpl length. rewrite terms_succ. simpl. f_equal. exact IH.
Qed.

Lemma mean_by_index_is_np_mean (l : list A) : mean_by_index l = np_mean l.
Proof.
  unfold mean_by_index, np_mean. rewrite terms_item. reflexivity.
Qed.

Lemma fit_by_index (x y : list A) :
  length x = length y -> x <> [] ->
  linear_regression_coefficients x y =
  Ok [slope_by_index x y; intercept_by_index x y].
Proof.
  intros Hl Hx. rewrite fit_unfold.
  rewrite (proj2 (paired_ok_true x y) (conj Hl Hx)). cbv zeta.
  unfold intercept_by_index, slope_by_index.
  rewrite !mean_by_index_is_np_mean.
  rewrite (terms_zip (fun a b => mul a (sub b (np_mean y))) x y Hl).
  rewrite (terms_map (fun a => mul (sub a (np_mean x)) (sub a (np_mean x))) x).
  unfold arr_mul, arr_sq, arr_sub_scalar.
  rewrite zip_with_map_r, map_map. reflexivity.
Qed.

End FormulasOfFit.

(** C1.  For sequences of equal non-zero length
    [linear_regression_coefficients] returns [[b1; b0]] with
    [b1 = sum_i x_i (y_i - mean y) / sum_i (x_i - mean x)^2] and
    [b0 = mean y - b1 * mean x], in the arithmetic it is run with and for
    every order of summation.  The numerator uses the raw [x_i]: over the
    reals it equals the centered (covariance) numerator, because
    [sum_i mean x * (y_i - mean y) = 0]; in binary64 the two differ, and the
    value returned is the one of the raw numerator. *)
Theorem fit_returns_slope_and_intercept :
  (forall (A : Type) (S : Scalar A) (x y : list A),
     length x = length y -> x <> [] ->
     linear_regression_coefficients x y =
       Ok [slope_by_index x y; intercept_by_index x y])
  /\ (forall x y : list R,
        length x = length y -> x <> [] ->
        sigma (length x) (fun i => mean_spec x * (at_ y i - mean_spec y)) = 0
        /\ sigma (length x) (fun i => at_ x i * (at_ y i - mean_spec y)) =
           sigma (length x)
             (fun i => (at_ x i - mean_spec x) * (at_ y i - mean_spec y)))
  /\ (exists b1 b0 : float,
        linear_regression_coefficients
          [100000001; 100000002; 100000004]%float
          [100000003; 100000001; 100000003]%float = Ok [b1; b0]
        /\ b1 = slope_by_index [100000001; 100000002; 100000004]%float
                  [100000003; 100000001; 100000003]%float
        /\ PrimFloat.eqb b1
             (slope_centered_by_index [100000001; 100000002; 100000004]%float
                [100000003; 100000001; 100000003]%float) = false).
Proof.
  split; [|split].
  - intros A S x y. apply fit_by_index.
  - exact raw_numerator_is_centered.
  - eexists. eexists. split; [apply fit_by_index; [reflexivity|discriminate]|].
    split; [reflexivity|]. vm_compute. reflexivity.
Qed.

Lemma fit_returns_slope_and_intercept_witness :
  linear_regression_coefficients [1; 2]%float [3; 5]%float =
    Ok [slope_by_index [1; 2]%float [3; 5]%float;
        intercept_by_index [1; 2]%float [3; 5]%float]
  /\ sigma 2 (fun i => mean_spec [1; 2] * (at_ [3; 5] i - mean_spec [3; 5])) = 0.
Proof.
  split.
  - apply (proj1 fit_returns_slope_and_intercept float float_scalar
             [1; 2]%float [3; 5]%float).
    + reflexivity.
    + discriminate.
  - apply (proj1 (proj2 fit_returns_slope_and_intercept) [1; 2] [3; 5]).
    + reflexivity.
    + discriminate.
Defined.

(* ================================================================= *)
(** ** Least-squares optimality *)








(* ================================================================= *)
(** ** R-squared of a perfect fit *)








(* ----------------------------------------------------------------- *)
(** *** Zeros and non-finite values in binary64 *)

Lemma non_finite_spec (f : float) : non_finite f = sf_non_finite (Prim2SF f).
Proof.
  unfold non_finite, is_nan, is_infinity.
  rewrite !FloatAxioms.eqb_spec, FloatAxioms.abs_spec.
  destruct (Prim2SF f) as [s|s| |s m e]; try reflexivity.
  - destruct s; reflexivity.
  - simpl. unfold SFeqb, SFcompare. simpl.
    destruct s; simpl.
    all: rewrite ?Z.compare_refl, ?Pos.compare_refl; try reflexivity.
    all: simpl; rewrite ?Pos.compare_cont_refl; reflexivity.
Qed.

Lemma is_zero_spec (f : float) :
  is_zero f = true -> exists s, Prim2SF f = S754_zero s.
Proof.
  unfold is_zero. rewrite FloatAxioms.eqb_spec.
  destruct (Prim2SF f) as [s|s| |s m e]; try discriminate.
  - intros _. exists s. reflexivity.
  - destruct s; discriminate.
  - destruct s; discriminate.
Qed.

(** Anything divided by a zero is NaN or an infinity. *)
Lemma div_zero_non_finite (n d : float) :
  is_zero d = true -> non_finite (PrimFloat.div n d) = true.
Proof.
  intro H. destruct (is_zero_spec d H) as [s E].
  rewrite non_finite_spec, FloatAxioms.div_spec, E.
  destruct (Prim2SF n); reflexivity.
Qed.

Lemma mul_non_finite (a b : float) :
  non_finite a = true -> non_finite (PrimFloat.mul a b) = true.
Proof.
  rewrite !non_finite_spec, FloatAxioms.mul_spec.
  destruct (Prim2SF a); try discriminate; intros _;
    destruct (Prim2SF b); reflexivity.
Qed.

Lemma add_non_finite (a b : float) :
  non_finite a = true -> non_finite (PrimFloat.add a b) = true.
Proof.
  rewrite !non_finite_spec, FloatAxioms.add_spec.
  destruct (Prim2SF a) as [s|s| |s m e]; try discriminate; intros _;
    destruct (Prim2SF b) as [s'|s'| |s' m' e']; try reflexivity.
  destruct s, s'; reflexivity.
Qed.

Lemma sub_non_finite (a b : float) :
  non_finite b = true -> non_finite (PrimFloat.sub a b) = true.
Proof.
  rewrite !non_finite_spec, FloatAxioms.sub_spec.
  destruct (Prim2SF b) as [s|s| |s m e]; try discriminate; intros _;
    destruct (Prim2SF a) as [s'|s'| |s' m' e']; try reflexivity.
  destruct s, s'; reflexivity.
Qed.





(* ================================================================= *)
(** ** The worked example *)

(** C3.  What the code returns in binary64 on [x = [1,2,3,4,5]] and
    [y = [2,4,5,4,5]]: the fit is [(0.6, 2.2)], not the [(0.2, 2.0)] of the
    docstring; the prediction with [(0.2, 2.0)] is
    [[2.2, 2.4, 2.6, 2.8, 3.0]] as documented; R-squared with [(0.2, 2.0)]
    is [-1.3000000000000003], not [0.24]; the mean squared error of [y]
    against that prediction is [2.7600000000000002], not [0.048], and its
    root [1.6613247725836151], not [0.2182]. *)
Theorem worked_example_values :
  linear_regression_coefficients [1; 2; 3; 4; 5]%float [2; 4; 5; 4; 5]%float =
    Ok [0.6; 2.2]%float
  /\ linear_function [1; 2; 3; 4; 5]%float [0.2; 2]%float =
       Ok [2.2; 2.4; 2.6; 2.8; 3]%float
  /\ r_squared [1; 2; 3; 4; 5]%float [2; 4; 5; 4; 5]%float [0.2; 2]%float =
       Ok (-1.3000000000000003)%float
  /\ mean_squared_error [2; 4; 5; 4; 5]%float [2.2; 2.4; 2.6; 2.8; 3]%float =
       Ok 2.7600000000000002%float
  /\ root_mean_squared_error [2; 4; 5; 4; 5]%float
       [2.2; 2.4; 2.6; 2.8; 3]%float = Ok 1.6613247725836151%float.
Proof. repeat split; vm_compute; reflexivity. Qed.

(* ================================================================= *)
(** ** Failure conditions *)

Section Failure.

Context {A : Type} {S : Scalar A}.

Lemma fit_invalid (x y : list A) :
  invalid_argument (linear_regression_coefficients x y) =
  negb (paired_ok x y).
Proof.
  rewrite fit_unfold. destruct (paired_ok x y); [reflexivity|].
  destruct (length x =? length y)%nat; reflexivity.
Qed.

Lemma mse_invalid (a b : list A) :
  invalid_argument (mean_squared_error a b) = negb (paired_ok a b).
Proof.
  rewrite mse_unfold. destruct (paired_ok a b); [reflexivity|].
  destruct (length a =? length b)%nat; reflexivity.
Qed.

Lemma rmse_invalid (a b : list A) :
  invalid_argument (root_mean_squared_error a b) = negb (paired_ok a b).
Proof.
  rewrite rmse_unfold. destruct (paired_ok a b); [reflexivity|].
  destruct (length a =? length b)%nat; reflexivity.
Qed.

Lemma r_squared_invalid (x y coef : list A) :
  invalid_argument (r_squared x y coef) =
  negb (paired_ok x y) || negb (length coef =? 2)%nat.
Proof.
  rewrite r_squared_unfold. destruct (paired_ok x y); simpl.
  - destruct coef as [|b1 [|b0 [|c coef]]]; reflexivity.
  - destruct (length x =? length y)%nat; reflexivity.
Qed.

Lemma predict_invalid (x coef : list A) :
  invalid_argument (linear_function x coef) = negb (length coef =? 2)%nat.
Proof.
  rewrite predict_unfold.
  destruct coef as [|b1 [|b0 [|c coef]]]; reflexivity.
Qed.

Lemma bad_lengths_not_paired (a b : list A) :
  a = [] \/ b = [] \/ length a <> length b -> paired_ok a b = false.
Proof.
  intro H. apply paired_ok_false. tauto.
Qed.

Lemma rmse_through_mse (a b : list A) :
  root_mean_squared_error a b =
  (m <- mean_squared_error a b ;; Ok (sqrt_ m)).
Proof.
  rewrite rmse_unfold, mse_unfold. destruct (paired_ok a b); [reflexivity|].
  destruct (length a =? length b)%nat; reflexivity.
Qed.

Lemma nth_line (b1 b0 : A) (x : list A) (i : nat) (d : A) :
  (i < length x)%nat ->
  nth i (map (fun xi => add (mul b1 xi) b0) x) d =
  add (mul b1 (nth i x d)) b0.
Proof.
  intro Hi.
  rewrite (nth_indep (map (fun xi => add (mul b1 xi) b0) x) d
             (add (mul b1 d) b0)) by (rewrite length_map; exact Hi).
  apply (map_nth (fun xi => add (mul b1 xi) b0)).
Qed.

End Failure.

(** C5 (amended).  [linear_regression_coefficients], [r_squared],
    [mean_squared_error] and [root_mean_squared_error] raise
    [InvalidArgument] when one of the paired sequences is empty or when the
    two differ in length.  [linear_function] does not check [x]: on an empty
    [x] and a two-element coefficient list it returns the empty sequence. *)
Theorem paired_operations_reject_bad_lengths
  {A : Type} {S : Scalar A} (a b coef : list A) :
  a = [] \/ b = [] \/ length a <> length b ->
  invalid_argument (linear_regression_coefficients a b) = true
  /\ invalid_argument (r_squared a b coef) = true
  /\ invalid_argument (mean_squared_error a b) = true
  /\ invalid_argument (root_mean_squared_error a b) = true
  /\ (forall b1 b0 : A, linear_function [] [b1; b0] = Ok []).
Proof.
  intro H. pose proof (bad_lengths_not_paired a b H) as Hp.
  rewrite fit_invalid, r_squared_invalid, mse_invalid, rmse_invalid, Hp.
  repeat split; reflexivity.
Qed.

Lemma paired_operations_reject_bad_lengths_witness :
  invalid_argument (linear_regression_coefficients (reals []) (reals [1])) = true
  /\ invalid_argument (r_squared (reals []) (reals [1]) [Finite 1; Finite 0]) = true
  /\ invalid_argument (mean_squared_error (reals []) (reals [1])) = true
  /\ invalid_argument (root_mean_squared_error (reals []) (reals [1])) = true
  /\ (forall b1 b0 : ereal, linear_function [] [b1; b0] = Ok []).
Proof.
  apply (paired_operations_reject_bad_lengths (reals []) (reals [1])
           [Finite 1; Finite 0]).
  left. reflexivity.
Defined.

(** [linear_function] accepts an empty [x]. *)
Lemma predict_accepts_empty_x :
  linear_function (reals []) [Finite 0.2; Finite 2] = Ok []
  /\ invalid_argument (linear_function (reals []) [Finite 0.2; Finite 2]) = false
  /\ linear_function ([] : list float) [1; 2]%float = Ok [].
Proof. repeat split; reflexivity. Qed.

(** C6.  [linear_function] fails with [InvalidArgument] exactly when [coef]
    does not have two elements; on [coef = [b1; b0]] it returns the sequence
    whose i-th element is [b1 * x_i + b0], of the length and in the order of
    [x]; an empty [x] gives an empty result and no error. *)
Theorem predict_applies_line {A : Type} {S : Scalar A} (x coef : list A) :
  (invalid_argument (linear_function x coef) = true <-> length coef <> 2%nat)
  /\ (forall b1 b0 : A,
        coef = [b1; b0] ->
        exists out,
          linear_function x coef = Ok out
          /\ out = map (fun xi => add (mul b1 xi) b0) x
          /\ length out = length x
          /\ forall i d, (i < length x)%nat ->
               nth i out d = add (mul b1 (nth i x d)) b0)
  /\ (forall b1 b0 : A, linear_function [] [b1; b0] = Ok []).
Proof.
  split; [|split].
  - rewrite predict_invalid, negb_true_iff, Nat.eqb_neq. tauto.
  - intros b1 b0 ->. exists (map (fun xi => add (mul b1 xi) b0) x).
    split; [rewrite predict_unfold; reflexivity|]. split; [reflexivity|].
    split; [apply length_map|]. intros i d Hi. apply nth_line. exact Hi.
  - intros b1 b0. reflexivity.
Qed.

Lemma mse_reals_nonneg (a b : list R) :
  0 <= Rmean (map Rsq (zip_with Rminus a b)).
Proof.
  unfold Rmean, Rdiv.
  pose proof (Rsum_sq_nonneg (zip_with Rminus a b)) as Hs.
  pose proof (pos_INR (length (map Rsq (zip_with Rminus a b)))) as Hn.
  destruct (Req_dec_T (INR (length (map Rsq (zip_with Rminus a b)))) 0) as [E|E].
  - rewrite E, Rinv_0. lra.
  - apply Rmult_le_pos; [exact Hs|].
    apply Rlt_le, Rinv_0_lt_compat. lra.
Qed.

(** C7.  [root_mean_squared_error] is [mean_squared_error] followed by the
    square root: on equal-length non-empty inputs it returns the square root
    of what [mean_squared_error] returns, and it raises exactly the exception
    [mean_squared_error] raises, under the same conditions (length mismatch
    or empty input).  On real inputs the square root is the real one. *)
Theorem rmse_is_sqrt_of_mse :
  (forall (A : Type) (S : Scalar A) (a b : list A),
     root_mean_squared_error a b =
       (m <- mean_squared_error a b ;; Ok (sqrt_ m))
     /\ (length a = length b -> a <> [] ->
         exists m, mean_squared_error a b = Ok m
                   /\ root_mean_squared_error a b = Ok (sqrt_ m))
     /\ (forall e, root_mean_squared_error a b = Raise e
                   <-> mean_squared_error a b = Raise e)
     /\ (invalid_argument (mean_squared_error a b) = true
         <-> length a <> length b \/ a = [] \/ b = [])
     /\ (invalid_argument (root_mean_squared_error a b) = true
         <-> length a <> length b \/ a = [] \/ b = []))
  /\ (forall a b : list R,
        length a = length b -> a <> [] ->
        exists m : R,
          0 <= m
          /\ mean_squared_error (reals a) (reals b) = Ok (Finite m)
          /\ root_mean_squared_error (reals a) (reals b) = Ok (Finite (sqrt m))).
Proof.
  split.
  - intros A S a b. split; [apply rmse_through_mse|]. split; [|split; [|split]].
    + intros Hl Ha. exists (np_mean (arr_sq (arr_sub a b))).
      rewrite rmse_unfold, mse_unfold.
      rewrite (proj2 (paired_ok_true a b) (conj Hl Ha)). split; reflexivity.
    + intro e. rewrite rmse_through_mse.
      destruct (mean_squared_error a b) as [m|e']; simpl.
      * split; intro H; discriminate H.
      * tauto.
    + rewrite mse_invalid, negb_true_iff. apply paired_ok_false.
    + rewrite rmse_invalid, negb_true_iff. apply paired_ok_false.
  - intros a b Hl Ha. exists (Rmean (map Rsq (zip_with Rminus a b))).
    pose proof (mse_reals_nonneg a b) as Hm.
    split; [exact Hm|]. split; [apply (mse_reals a b Hl Ha)|].
    rewrite rmse_through_mse, (mse_reals a b Hl Ha). simpl.
    destruct (Rlt_dec (Rmean (map Rsq (zip_with Rminus a b))) 0) as [H|_];
      [lra|reflexivity].
Qed.

Lemma rmse_is_sqrt_of_mse_witness :
  exists m : R,
    0 <= m
    /\ mean_squared_error (reals [1; 2]) (reals [3; 5]) = Ok (Finite m)
    /\ root_mean_squared_error (reals [1; 2]) (reals [3; 5]) =
         Ok (Finite (sqrt m)).
Proof.
  apply (proj2 rmse_is_sqrt_of_mse [1; 2] [3; 5]).
  - reflexivity.
  - discriminate.
Defined.

(* ================================================================= *)
(** ** Fit: when it raises, and the unguarded division *)

Lemma fit_binary64_zero_divisor (reduce : list float -> float)
  (x y : list float) :
  length x = length y -> x <> [] ->
  is_zero (np_sum (S := binary64 reduce)
             (arr_sq (S := binary64 reduce)
                (arr_sub_scalar (S := binary64 reduce) x
                   (np_mean (S := binary64 reduce) x)))) = true ->
  exists b1 b0 : float,
    linear_regression_coefficients (S := binary64 reduce) x y = Ok [b1; b0]
    /\ non_finite b1 = true /\ non_finite b0 = true.
Proof.
  intros Hl Hx Hz. rewrite fit_unfold.
  rewrite (proj2 (paired_ok_true x y) (conj Hl Hx)). cbv zeta.
  eexists. eexists. split; [reflexivity|].
  pose proof (div_zero_non_finite
                (np_sum (S := binary64 reduce)
                   (arr_mul (S := binary64 reduce) x
                      (arr_sub_scalar (S := binary64 reduce) y
                         (np_mean (S := binary64 reduce) y)))) _ Hz) as Hb1.
  split; [exact Hb1|].
  apply sub_non_finite, mul_non_finite. exact Hb1.
Qed.

(** C8 (amended).  [linear_regression_coefficients] raises
    [InvalidArgument] exactly when the lengths differ or a sequence is
    empty, in every arithmetic.  In binary64, for every order of summation:
    when the computed divisor [sum((x - mean x)^2)] is zero the division is
    not guarded, no error is raised, and both coefficients returned are NaN
    or infinite.  (Identical [x] values do not always make the computed
    divisor zero.) *)
Theorem fit_fails_only_on_bad_lengths :
  (forall (A : Type) (S : Scalar A) (x y : list A),
     invalid_argument (linear_regression_coefficients x y) = true
     <-> length x <> length y \/ x = [] \/ y = [])
  /\ (forall (reduce : list float -> float) (x y : list float),
        length x = length y -> x <> [] ->
        is_zero (np_sum (S := binary64 reduce)
                   (arr_sq (S := binary64 reduce)
                      (arr_sub_scalar (S := binary64 reduce) x
                         (np_mean (S := binary64 reduce) x)))) = true ->
        exists b1 b0 : float,
          linear_regression_coefficients (S := binary64 reduce) x y =
            Ok [b1; b0]
          /\ non_finite b1 = true /\ non_finite b0 = true).
Proof.
  split.
  - intros A S x y. rewrite fit_invalid, negb_true_iff. apply paired_ok_false.
  - exact fit_binary64_zero_divisor.
Qed.

Lemma fit_fails_only_on_bad_lengths_witness :
  exists b1 b0 : float,
    linear_regression_coefficients [1; 1]%float [1; 2]%float = Ok [b1; b0]
    /\ non_finite b1 = true /\ non_finite b0 = true.
Proof.
  apply (proj2 fit_fails_only_on_bad_lengths
           (left_to_right PrimFloat.add 0%float) [1; 1]%float [1; 2]%float).
  - reflexivity.
  - discriminate.
  - vm_compute. reflexivity.
Defined.

(** In binary64 the mean of identical values need not be that value: for
    three copies of the double nearest to 0.1 the deviations from the
    rounded mean are not zero, the divisor is not zero either, and the
    coefficients returned are the numbers 0 and 2. *)
Lemma fit_identical_x_finite :
  PrimFloat.eqb (np_mean [0.1; 0.1; 0.1]%float) 0.1%float = false
  /\ is_zero (np_sum (arr_sq (arr_sub_scalar [0.1; 0.1; 0.1]%float
                                (np_mean [0.1; 0.1; 0.1]%float)))) = false
  /\ linear_regression_coefficients [0.1; 0.1; 0.1]%float [1; 2; 3]%float =
       Ok [0; 2]%float
  /\ non_finite 0%float = false /\ non_finite 2%float = false.
Proof. repeat split; vm_compute; reflexivity. Qed.

(* ================================================================= *)
(** ** Laws of the mean squared error *)

Lemma Rsum_sq_self (y : list R) : Rsum (map Rsq (zip_with Rminus y y)) = 0.
Proof.
  induction y as [|r y IH]; [reflexivity|].
  simpl. rewrite IH. unfold Rsq. ring.
Qed.

(** C9.  For every non-empty real sequence [y],
    [mean_squared_error(y, y)] is [0]. *)
Theorem mse_of_identical_inputs (y : list R) :
  y <> [] ->
  mean_squared_error (reals y) (reals y) = Ok (Finite 0).
Proof.
  intro Hy. rewrite (mse_reals y y eq_refl Hy). do 2 f_equal.
  unfold Rmean. rewrite Rsum_sq_self. unfold Rdiv. ring.
Qed.

Lemma mse_of_identical_inputs_witness :
  mean_squared_error (reals [1; 2]) (reals [1; 2]) = Ok (Finite 0).
Proof.
  apply (mse_of_identical_inputs [1; 2]). discriminate.
Defined.

Lemma sq_diff_swap (a b : list R) :
  map Rsq (zip_with Rminus a b) = map Rsq (zip_with Rminus b a).
Proof.
  revert b. induction a as [|r a IH]; intros [|s b]; simpl; try reflexivity.
  rewrite IH. f_equal. unfold Rsq. ring.
Qed.

(** C10.  [mean_squared_error] is symmetric on equal-length non-empty real
    sequences, and so is [root_mean_squared_error]. *)
Theorem mse_symmetric (a b : list R) :
  length a = length b ->
  a <> [] ->
  mean_squared_error (reals a) (reals b) =
    mean_squared_error (reals b) (reals a)
  /\ root_mean_squared_error (reals a) (reals b) =
       root_mean_squared_error (reals b) (reals a).
Proof.
  intros Hl Ha.
  assert (mean_squared_error (reals a) (reals b) =
          mean_squared_error (reals b) (reals a)) as H.
  { rewrite (mse_reals a b Hl Ha).
    rewrite (mse_reals b a (eq_sym Hl) (paired_nonempty a b Hl Ha)).
    rewrite sq_diff_swap. reflexivity. }
  split; [exact H|]. rewrite !rmse_through_mse, H. reflexivity.
Qed.

Lemma mse_symmetric_witness :
  mean_squared_error (reals [1; 2]) (reals [3; 5]) =
    mean_squared_error (reals [3; 5]) (reals [1; 2])
  /\ root_mean_squared_error (reals [1; 2]) (reals [3; 5]) =
       root_mean_squared_error (reals [3; 5]) (reals [1; 2]).
Proof.
  apply (mse_symmetric [1; 2] [3; 5]).
  - reflexivity.
  - discriminate.
Defined.

(* ================================================================= *)
(** ** Further properties of the five functions *)

(* ----------------------------------------------------------------- *)
(** *** Which exception, and when *)

Lemma not_paired_equal_lengths {A : Type} (a b : list A) :
  paired_ok a b = false -> (length a =? length b)%nat = true ->
  a = [] /\ b = [].
Proof.
  intros Hp Hl. apply Nat.eqb_eq in Hl. apply paired_ok_false in Hp.
  destruct a as [|a0 a'], b as [|b0 b']; try discriminate Hl.
  - split; reflexivity.
  - exfalso. destruct Hp as [H|[H|H]]; [apply H; exact Hl| |]; discriminate H.
Qed.

(** X1.  [r_squared] raises [InvalidArgument] exactly when the lengths of [x]
    and [y] differ, one of them is empty, or [coef] does not have two
    elements; the message about [coef] is the one raised exactly when [x]
    and [y] pass their checks and [coef] does not. *)
Theorem r_squared_raises_iff {A : Type} {S : Scalar A} (x y coef : list A) :
  (invalid_argument (r_squared x y coef) = true
   <-> length x <> length y \/ x = [] \/ y = [] \/ length coef <> 2%nat)
  /\ (r_squared x y coef =
        Raise (ValueError "coef must contain exactly two elements: [b1, b0]")
      <-> length x = length y /\ x <> [] /\ length coef <> 2%nat).
Proof.
  split.
  - rewrite r_squared_invalid, orb_true_iff, !negb_true_iff.
    rewrite paired_ok_false, Nat.eqb_neq. tauto.
  - rewrite r_squared_unfold. destruct (paired_ok x y) eqn:Hp.
    + apply paired_ok_true in Hp. destruct Hp as [Hl Hx].
      destruct coef as [|b1 [|b0 [|c coef]]]; simpl; split;
        try (intros _; repeat split; try assumption; discriminate);
        try (intro H; discriminate H).
      intros [_ [_ H]]. exfalso. apply H. reflexivity.
    + destruct (length x =? length y)%nat eqn:Hl.
      * destruct (not_paired_equal_lengths x y Hp Hl) as [-> _].
        split; [intro H; discriminate H|].
        intros [_ [H _]]. exfalso. apply H. reflexivity.
      * apply Nat.eqb_neq in Hl. split; [intro H; discriminate H|].
        intros [H _]. contradiction.
Qed.

Lemma guard_messages {A B : Type} (a b : list A) (ok : result B)
  (m_len m_empty : string) :
  m_len <> m_empty ->
  ok <> Raise (ValueError m_len) ->
  ok <> Raise (ValueError m_empty) ->
  ((if paired_ok a b then ok
    else if (length a =? length b)%nat then Raise (ValueError m_empty)
    else Raise (ValueError m_len)) = Raise (ValueError m_len)
   <-> length a <> length b)
  /\ ((if paired_ok a b then ok
       else if (length a =? length b)%nat then Raise (ValueError m_empty)
       else Raise (ValueError m_len)) = Raise (ValueError m_empty)
      <-> a = [] /\ b = []).
Proof.
  intros Hm Hok1 Hok2. destruct (paired_ok a b) eqn:Hp.
  - apply paired_ok_true in Hp. destruct Hp as [Hl Ha].
    split; (split; [intro H; contradiction|tauto]).
  - destruct (length a =? length b)%nat eqn:Hl.
    + destruct (not_paired_equal_lengths a b Hp Hl) as [-> ->]. split.
      * split; [|intro H; exfalso; apply H; reflexivity].
        intro H. injection H as H. exfalso. apply Hm. symmetry. exact H.
      * split; [intros _; split; reflexivity|reflexivity].
    + apply Nat.eqb_neq in Hl. split.
      * split; [intros _; exact Hl|reflexivity].
      * split; [|intros [-> ->]; exfalso; apply Hl; reflexivity].
        intro H. injection H as H. exfalso. apply Hm. exact H.
Qed.

(** X2.  The length comparison comes first in every paired check: the
    same-length message is raised exactly when the lengths differ (also when
    one of the two sequences is empty), and the cannot-be-empty message
    exactly when both sequences are empty. *)
Theorem paired_check_messages {A : Type} {S : Scalar A} (a b coef : list A) :
  ((linear_regression_coefficients a b =
      Raise (ValueError "x and y must have the same length")
    <-> length a <> length b)
   /\ (linear_regression_coefficients a b =
         Raise (ValueError "x and y cannot be empty")
       <-> a = [] /\ b = []))
  /\ ((r_squared a b coef =
         Raise (ValueError "x and y must have the same length")
       <-> length a <> length b)
      /\ (r_squared a b coef = Raise (ValueError "x and y cannot be empty")
          <-> a = [] /\ b = []))
  /\ ((mean_squared_error a b =
         Raise (ValueError "y_true and y_pred must have the same length")
       <-> length a <> length b)
      /\ (mean_squared_error a b =
            Raise (ValueError "y_true and y_pred cannot be empty")
          <-> a = [] /\ b = []))
  /\ ((root_mean_squared_error a b =
         Raise (ValueError "y_true and y_pred must have the same length")
       <-> length a <> length b)
      /\ (root_mean_squared_error a b =
            Raise (ValueError "y_true and y_pred cannot be empty")
          <-> a = [] /\ b = [])).
Proof.
  rewrite fit_unfold, r_squared_unfold, mse_unfold, rmse_unfold. cbv zeta.
  split; [|split; [|split]]; apply guard_messages; try discriminate.
  all: destruct coef as [|b1 [|b0 [|c coef]]]; discriminate.
Qed.

(** X3.  What [linear_regression_coefficients] returns is always accepted by
    [linear_function] and [r_squared]: on sequences of equal non-zero length
    the three calls return, whatever the arithmetic and the data. *)
Theorem fit_result_is_accepted {A : Type} {S : Scalar A} (x y : list A) :
  length x = length y ->
  x <> [] ->
  exists (b1 b0 : A) (y_fit : list A) (r2 : A),
    linear_regression_coefficients x y = Ok [b1; b0]
    /\ linear_function x [b1; b0] = Ok y_fit
    /\ length y_fit = length x
    /\ r_squared x y [b1; b0] = Ok r2.
Proof.
  intros Hl Hx.
  pose proof (proj2 (paired_ok_true x y) (conj Hl Hx)) as Hp.
  rewrite fit_unfold, Hp. cbv zeta.
  do 4 eexists. split; [reflexivity|].
  rewrite predict_unfold. split; [reflexivity|].
  split; [apply length_map|].
  rewrite r_squared_unfold, Hp. reflexivity.
Qed.

Lemma fit_result_is_accepted_witness :
  exists (b1 b0 : float) (y_fit : list float) (r2 : float),
    linear_regression_coefficients [1; 2]%float [3; 5]%float = Ok [b1; b0]
    /\ linear_function [1; 2]%float [b1; b0] = Ok y_fit
    /\ length y_fit = length [1; 2]%float
    /\ r_squared [1; 2]%float [3; 5]%float [b1; b0] = Ok r2.
Proof.
  apply (fit_result_is_accepted [1; 2]%float [3; 5]%float).
  - reflexivity.
  - discriminate.
Defined.

(* ----------------------------------------------------------------- *)
(** *** Unguarded divisions in binary64 *)

(** X9.  [r_squared] divides by the total sum of squares unguarded: in
    binary64, for every order of summation, whenever the computed total sum
    of squares of [y] is zero, [r_squared] raises nothing and returns NaN or
    an infinity, whatever the two coefficients. *)
Theorem r_squared_zero_total_variance (reduce : list float -> float)
  (x y : list float) (b1 b0 : float) :
  length x = length y ->
  x <> [] ->
  is_zero (total_sum_of_squares (S := binary64 reduce) y) = true ->
  exists r2 : float,
    r_squared (S := binary64 reduce) x y [b1; b0] = Ok r2
    /\ non_finite r2 = true.
Proof.
  intros Hl Hx Hz. rewrite r_squared_unfold.
  rewrite (proj2 (paired_ok_true x y) (conj Hl Hx)).
  eexists. split; [reflexivity|].
  apply sub_non_finite, div_zero_non_finite. exact Hz.
Qed.

Lemma r_squared_zero_total_variance_witness :
  exists r2 : float,
    r_squared [1; 2]%float [3; 3]%float [7; 9]%float = Ok r2
    /\ non_finite r2 = true.
Proof.
  apply (r_squared_zero_total_variance (left_to_right PrimFloat.add 0%float)
           [1; 2]%float [3; 3]%float 7%float 9%float).
  - reflexivity.
  - discriminate.
  - vm_compute. reflexivity.
Defined.

(** X13.  A fit with a zero computed divisor poisons every prediction,
    silently: in binary64, for every order of summation, the coefficients
    returned are accepted by [linear_function], which raises nothing and
    returns, for any input sequence, as many values as it was given, each of
    them NaN or infinite. *)
Theorem degenerate_fit_propagates (reduce : list float -> float)
  (x y x' : list float) :
  length x = length y ->
  x <> [] ->
  is_zero (np_sum (S := binary64 reduce)
             (arr_sq (S := binary64 reduce)
                (arr_sub_scalar (S := binary64 reduce) x
                   (np_mean (S := binary64 reduce) x)))) = true ->
  exists (b1 b0 : float) (y' : list float),
    linear_regression_coefficients (S := binary64 reduce) x y = Ok [b1; b0]
    /\ linear_function (S := binary64 reduce) x' [b1; b0] = Ok y'
    /\ length y' = length x'
    /\ Forall (fun v => non_finite v = true) y'.
Proof.
  intros Hl Hx Hz.
  destruct (fit_binary64_zero_divisor reduce x y Hl Hx Hz)
    as [b1 [b0 [Hf [Hb1 _]]]].
  exists b1, b0. eexists. split; [exact Hf|].
  rewrite predict_unfold. split; [reflexivity|].
  split; [apply length_map|].
  apply Forall_forall. intros v Hv. apply in_map_iff in Hv.
  destruct Hv as [xi [<- _]].
  apply add_non_finite, mul_non_finite. exact Hb1.
Qed.

Lemma degenerate_fit_propagates_witness :
  exists (b1 b0 : float) (y' : list float),
    linear_regression_coefficients [1; 1]%float [1; 2]%float = Ok [b1; b0]
    /\ linear_function [5; 6; 7]%float [b1; b0] = Ok y'
    /\ length y' = length [5; 6; 7]%float
    /\ Forall (fun v => non_finite v = true) y'.
Proof.
  apply (degenerate_fit_propagates (left_to_right PrimFloat.add 0%float)
           [1; 1]%float [1; 2]%float [5; 6; 7]%float).
  - reflexivity.
  - discriminate.
  - vm_compute. reflexivity.
Defined.
